(** * Response extraction of the Skybrush message layer

    A shallow embedding of the two response parsers of the Flockwave message
    utilities,

      - [extractResultOrReceiptFromMaybeAsyncResponse] (per-target outcome of
        a command response: result, receipt or thrown error), and
      - [extractResponseForId] (entry of a status-style response),

    together with the table [MESSAGES_WITH_RECEIPTS] they consult, and the
    small part of the JavaScript runtime they rely on: truthiness, [typeof],
    property reads, string conversion and thrown errors. *)

From Stdlib Require Import String Ascii List ZArith NArith Bool Lia.
From Stdlib Require Import DecimalString.
Import ListNotations.
Open Scope string_scope.

(** ** JavaScript values *)

(** The built-in prototype objects a property read can reach from a value
    that was parsed from JSON. *)
Inductive Proto : Type :=
| ObjectP
| ArrayP
| StringP
| NumberP
| BooleanP.

(** Built-in objects: [Method p name] is the function found as
    [p.prototype[name]]; [Prototype p] is the prototype object itself, which
    is what reading [__proto__] yields. *)
Inductive Builtin : Type :=
| Method (p : Proto) (name : string)
| Prototype (p : Proto).

(** Values.  [JNum z] is the integer-valued number [z] (a safe integer);
    strings are sequences of code units; [JObj props] is a plain object with
    own properties [props], where the first binding of a repeated key is the
    property. *)
#[warnings="-register-all"]
Inductive JsVal : Type :=
| JUndefined
| JNull
| JBool (b : bool)
| JNum (z : Z)
| JStr (s : string)
| JArr (xs : list JsVal)
| JObj (props : list (string * JsVal))
| JBuiltin (b : Builtin).

(** ** Thrown errors and completions *)

Inductive ErrorCtor : Type :=
| Error_
| TypeError_.

(** [Thrown c msg] is the error made by [new c(...)] in the source, with the
    message it stores.  [EngineTypeError] is a [TypeError] raised by the
    runtime itself (a property read on [undefined] or [null], an object that
    cannot be converted to a primitive); its message text is the engine's. *)
Inductive Exn : Type :=
| Thrown (ctor : ErrorCtor) (message : string)
| EngineTypeError.

Inductive Completion (A : Type) : Type :=
| Return (a : A)
| Throw (e : Exn).

Arguments Return {A} a.
Arguments Throw {A} e.

Definition bind {A B : Type} (c : Completion A) (k : A -> Completion B)
  : Completion B :=
  match c with
  | Return a => k a
  | Throw e => Throw e
  end.

Notation "x <- c ;; k" := (bind c (fun x => k))
  (at level 61, c at next level, right associativity).

(** ** The runtime operations the parsers use *)

(** What the built-ins look like depends on the engine and on the edition of
    the language: which methods the wrapper prototypes carry, what a read on
    a built-in object yields, and how a built-in function prints.  The model
    takes them as a parameter. *)
Record Engine : Type := {
  wrapper_method : Proto -> string -> bool;
  builtin_get : Builtin -> string -> option JsVal;
  builtin_text : Builtin -> string
}.

(** The properties every object inherits from [Object.prototype]. *)
Definition Object_prototype_methods : list string :=
  [ "constructor"; "hasOwnProperty"; "isPrototypeOf"; "propertyIsEnumerable";
    "toLocaleString"; "toString"; "valueOf";
    "__defineGetter__"; "__defineSetter__";
    "__lookupGetter__"; "__lookupSetter__" ].

Definition mem (k : string) (l : list string) : bool :=
  existsb (String.eqb k) l.

Definition is_undefined (v : JsVal) : bool :=
  match v with JUndefined => true | _ => false end.

Definition is_nullish (v : JsVal) : bool :=
  match v with JUndefined | JNull => true | _ => false end.

(** [v === s] for a string literal [s]. *)
Definition strict_eq_str (v : JsVal) (s : string) : bool :=
  match v with JStr t => String.eqb t s | _ => false end.

(** ToBoolean. *)
Definition truthy (v : JsVal) : bool :=
  match v with
  | JUndefined | JNull => false
  | JBool b => b
  | JNum z => negb (Z.eqb z 0)
  | JStr s => negb (String.eqb s "")
  | JArr _ | JObj _ | JBuiltin _ => true
  end.

(** [a || b]. *)
Definition js_or (a b : JsVal) : JsVal := if truthy a then a else b.

Definition js_typeof (v : JsVal) : string :=
  match v with
  | JUndefined => "undefined"
  | JNull => "object"
  | JBool _ => "boolean"
  | JNum _ => "number"
  | JStr _ => "string"
  | JArr _ | JObj _ => "object"
  | JBuiltin (Method _ _) => "function"
  | JBuiltin (Prototype _) => "object"
  end.

Fixpoint own_property (props : list (string * JsVal)) (k : string)
  : option JsVal :=
  match props with
  | [] => None
  | (k', v) :: rest => if String.eqb k' k then Some v else own_property rest k
  end.

(** A key is an array index when it is the canonical decimal text of a
    natural number. *)
Definition array_index (k : string) : option N :=
  match NilZero.uint_of_string k with
  | Some u =>
      let n := N.of_uint u in
      if String.eqb (NilZero.string_of_uint (N.to_uint n)) k
      then Some n else None
  | None => None
  end.

Definition element {A : Type} (xs : list A) (n : N) : option A :=
  if N.ltb n (N.of_nat (List.length xs)) then nth_error xs (N.to_nat n)
  else None.

Definition string_units (s : string) : list ascii := list_ascii_of_string s.

(** A property found on the prototype chain of a value whose prototype is
    [p]: a method of [p], the prototype itself under [__proto__], or what
    [Object.prototype] provides. *)
Definition inherited (E : Engine) (p : Proto) (k : string) : option JsVal :=
  if String.eqb k "__proto__" then Some (JBuiltin (Prototype p))
  else match p with
       | ObjectP =>
           if mem k Object_prototype_methods
           then Some (JBuiltin (Method ObjectP k)) else None
       | _ =>
           if wrapper_method E p k then Some (JBuiltin (Method p k))
           else if mem k Object_prototype_methods
                then Some (JBuiltin (Method ObjectP k)) else None
       end.

(** The property [k] of a value that is neither [undefined] nor [null], own
    properties first; [None] when there is no such property. *)
Definition find_property (E : Engine) (v : JsVal) (k : string)
  : option JsVal :=
  match v with
  | JUndefined | JNull => None
  | JObj props =>
      match own_property props k with
      | Some x => Some x
      | None => inherited E ObjectP k
      end
  | JArr xs =>
      match array_index k with
      | Some n =>
          match element xs n with
          | Some x => Some x
          | None => inherited E ArrayP k
          end
      | None =>
          if String.eqb k "length"
          then Some (JNum (Z.of_nat (List.length xs)))
          else inherited E ArrayP k
      end
  | JStr s =>
      match array_index k with
      | Some n =>
          match element (string_units s) n with
          | Some c => Some (JStr (String c EmptyString))
          | None => inherited E StringP k
          end
      | None =>
          if String.eqb k "length"
          then Some (JNum (Z.of_nat (String.length s)))
          else inherited E StringP k
      end
  | JNum _ => inherited E NumberP k
  | JBool _ => inherited E BooleanP k
  | JBuiltin b => builtin_get E b k
  end.

(** [k in Object(v)]. *)
Definition js_in (E : Engine) (k : string) (v : JsVal) : bool :=
  match find_property E v k with Some _ => true | None => false end.

(** The value of [v[k]] where [v] is neither [undefined] nor [null]. *)
Definition js_prop (E : Engine) (v : JsVal) (k : string) : JsVal :=
  match find_property E v k with Some x => x | None => JUndefined end.

(** [v[k]], [v.k] and the destructuring [const { k } = v]: a read on
    [undefined] or [null] throws. *)
Definition js_get (E : Engine) (v : JsVal) (k : string) : Completion JsVal :=
  if is_nullish v then Throw EngineTypeError else Return (js_prop E v k).

(** ** Conversion to a string *)

Definition number_text (z : Z) : string :=
  NilZero.string_of_int (Z.to_int z).

(** The default text of a built-in prototype object. *)
Definition prototype_text (p : Proto) : string :=
  match p with
  | ObjectP => "[object Object]"
  | ArrayP | StringP => ""
  | NumberP => "0"
  | BooleanP => "false"
  end.

(** ToString.  A plain object prints through the inherited
    [Object.prototype.toString]; one with an own [toString] property (which,
    read from JSON, is not callable) has no primitive value and the
    conversion throws.  An array joins the texts of its elements with commas,
    [undefined] and [null] printing as the empty string. *)
Fixpoint ToString (E : Engine) (v : JsVal) : Completion string :=
  match v with
  | JUndefined => Return "undefined"
  | JNull => Return "null"
  | JBool true => Return "true"
  | JBool false => Return "false"
  | JNum z => Return (number_text z)
  | JStr s => Return s
  | JArr xs =>
      (fix join (l : list JsVal) : Completion string :=
         match l with
         | [] => Return ""
         | x :: rest =>
             s <- (if is_nullish x then Return "" else ToString E x) ;;
             match rest with
             | [] => Return s
             | _ => r <- join rest ;; Return (s ++ "," ++ r)
             end
         end) xs
  | JObj props =>
      match own_property props "toString" with
      | Some _ => Throw EngineTypeError
      | None => Return "[object Object]"
      end
  | JBuiltin (Prototype p) => Return (prototype_text p)
  | JBuiltin b => Return (builtin_text E b)
  end.

(** [new C(arg)]: the error stores the text of its argument as message (no
    message when the argument is [undefined]). *)
Definition new_error (E : Engine) (c : ErrorCtor) (arg : JsVal)
  : Completion Exn :=
  if is_undefined arg then Return (Thrown c "")
  else msg <- ToString E arg ;; Return (Thrown c msg).

(** [throw new C(arg)]. *)
Definition throw_new {A : Type} (E : Engine) (c : ErrorCtor) (arg : JsVal)
  : Completion A :=
  match new_error E c arg with
  | Return e => Throw e
  | Throw e => Throw e
  end.

(** [v[key]] with a computed key: the key is converted to a string first. *)
Definition js_get_computed (E : Engine) (v key : JsVal) : Completion JsVal :=
  k <- ToString E key ;; js_get E v k.

(** ** lodash's [get]

    [get(object, path)] of lodash for a dotted path such as ['body.error']
    (nonempty segments, no brackets), which is how both call sites use it.
    A property of the object that is literally named by the whole path wins
    (lodash's [isKey]); otherwise the path is split at the dots and walked
    segment by segment, and the walk stops with [undefined] at the first
    [undefined] or [null] (lodash's [baseGet]). *)

Fixpoint split_dots (s acc : string) : list string :=
  match s with
  | EmptyString => [acc]
  | String c rest =>
      if Ascii.eqb c "."%char then acc :: split_dots rest ""
      else split_dots rest (acc ++ String c EmptyString)
  end.

Definition has_dot (s : string) : bool :=
  existsb (Ascii.eqb "."%char) (list_ascii_of_string s).

Definition castPath (E : Engine) (path : string) (object : JsVal)
  : list string :=
  if negb (has_dot path) || js_in E path object then [path]
  else split_dots path "".

Fixpoint baseGet (E : Engine) (object : JsVal) (path : list string) : JsVal :=
  match path with
  | [] => object
  | key :: rest =>
      if is_nullish object then JUndefined
      else baseGet E (js_prop E object key) rest
  end.

Definition get (E : Engine) (object : JsVal) (path : string) : JsVal :=
  if is_nullish object then JUndefined
  else baseGet E object (castPath E path object).

(** ** The parsers *)

Definition MESSAGES_WITH_RECEIPTS : JsVal :=
  JObj [ ("OBJ-CMD", JBool true);
         ("UAV-FLY", JBool true);
         ("UAV-HALT", JBool true);
         ("UAV-LAND", JBool true);
         ("UAV-RST", JBool true);
         ("UAV-RTH", JBool true);
         ("UAV-SIGNAL", JBool true);
         ("UAV-TAKEOFF", JBool true) ].

(** The guard [m && m[k] !== undefined]. *)
Definition has_entry (E : Engine) (m : JsVal) (k : string) : Completion bool :=
  if truthy m
  then v <- js_get E m k ;; Return (negb (is_undefined v))
  else Return false.

Definition extractResultOrReceiptFromMaybeAsyncResponse
    (E : Engine) (message : JsVal) (uavId : string) : Completion JsVal :=
  body <- js_get E message "body" ;;
  type <- js_get E body "type" ;;
  if strict_eq_str type "ACK-NAK" then
    reason <- js_get E body "reason" ;;
    throw_new E Error_ (js_or reason (JStr "ACK-NAK received; no reason given"))
  else
    known <- js_get_computed E MESSAGES_WITH_RECEIPTS type ;;
    if truthy known then
      error <- js_get E body "error" ;;
      receipt <- js_get E body "receipt" ;;
      result <- js_get E body "result" ;;
      in_error <- has_entry E error uavId ;;
      if in_error then
        errors <- js_get E body "error" ;;
        entry <- js_get E errors uavId ;;
        throw_new E Error_ (js_or entry (JStr "Failed to execute command"))
      else
        in_result <- has_entry E result uavId ;;
        if in_result then
          value <- js_get E result uavId ;;
          Return (JObj [("result", value)])
        else
          in_receipt <- has_entry E receipt uavId ;;
          if in_receipt then
            value <- js_get E receipt uavId ;;
            Return (JObj [("receipt", value)])
          else
            throw_new E Error_
              (JStr "Server did not provide a response or receipt for the command")
    else
      text <- ToString E type ;;
      throw_new E Error_ (JStr (text ++ " messages do not contain receipts")).

(** The guard [typeof m === 'object' && m[k] !== undefined]; the second
    guard of [extractResponseForId] spells its right-hand side
    [typeof m[k] !== 'undefined'], which is the same test. *)
Definition has_object_entry (E : Engine) (m : JsVal) (k : string)
  : Completion bool :=
  if String.eqb (js_typeof m) "object"
  then v <- js_get E m k ;; Return (negb (String.eqb (js_typeof v) "undefined"))
  else Return false.

Definition extractResponseForId
    (E : Engine) (message : JsVal) (id : string) (options : JsVal)
  : Completion JsVal :=
  let options := if is_undefined options then JObj [] else options in
  let errors := get E message "body.error" in
  in_errors <- has_object_entry E errors id ;;
  if in_errors then
    entry <- js_get E errors id ;;
    if String.eqb (js_typeof entry) "string" then
      throw_new E TypeError_ entry
    else
      error <- js_get E options "error" ;;
      throw_new E Error_
        (js_or error
           (JStr ("Failed to retrieve result for ID " ++ id ++ " from response")))
  else
    let results := get E message "body.status" in
    in_results <- has_object_entry E results id ;;
    if in_results then js_get E results id
    else
      throw_new E Error_
        (JStr ("No result for ID " ++ id
               ++ " but no error either; this should not have happened.")).

(** ** Vocabulary of the statements *)

(** The type tag the extractor dispatches on: [message.body.type]. *)
Definition response_type (E : Engine) (message : JsVal) : JsVal :=
  js_prop E (js_prop E message "body") "type".

(** The field [k] of the body of a message. *)
Definition body_field (E : Engine) (message : JsVal) (k : string) : JsVal :=
  js_prop E (js_prop E message "body") k.

(** The entry of the per-target map [m] for the target [k], as the guard
    [m && m[k]] sees it: [undefined] when the map is missing. *)
Definition entry (E : Engine) (m : JsVal) (k : string) : JsVal :=
  if truthy m then js_prop E m k else JUndefined.

Definition own_keys (v : JsVal) : list string :=
  match v with
  | JObj props => map fst props
  | _ => []
  end.

(** The type tags listed in [MESSAGES_WITH_RECEIPTS]. *)
Definition receipt_types : list string := own_keys MESSAGES_WITH_RECEIPTS.

Definition rejection_default : string := "ACK-NAK received; no reason given".
Definition failure_default : string := "Failed to execute command".
Definition missing_outcome_message : string :=
  "Server did not provide a response or receipt for the command".
Definition unsupported_message (type_text : string) : string :=
  type_text ++ " messages do not contain receipts".
Definition inconsistency_message (id : string) : string :=
  "No result for ID " ++ id
  ++ " but no error either; this should not have happened.".

(** The [error] and [status] maps of a status-style response, as the
    extractor reads them. *)
Definition error_map (E : Engine) (message : JsVal) : JsVal :=
  get E message "body.error".

Definition status_map (E : Engine) (message : JsVal) : JsVal :=
  get E message "body.status".

(** The last code unit of a string. *)
Fixpoint last_unit (s : string) : option ascii :=
  match s with
  | EmptyString => None
  | String c EmptyString => Some c
  | String _ rest => last_unit rest
  end.

(** Whether the outcome object [o] carries the tag [tag]. *)
Definition populated (E : Engine) (o : JsVal) (tag : string) : bool :=
  negb (is_undefined (js_prop E o tag)).

(** The names every plain object inherits: a read of one of them on a map
    that does not bind it yields a built-in, not [undefined]. *)
Definition inherited_name (k : string) : bool :=
  String.eqb k "__proto__" || mem k Object_prototype_methods.

(** The entry a plain map binds to a key itself. *)
Definition own_entry (m : JsVal) (k : string) : option JsVal :=
  match m with
  | JObj props => own_property props k
  | _ => None
  end.

(** A field that holds a plain map, or a value the guard [m && ...] skips
    ([undefined], [null] and the other falsy values). *)
Definition map_or_falsy (m : JsVal) : bool :=
  match m with
  | JObj _ => true
  | _ => negb (truthy m)
  end.


(** An engine description to run the model on concrete messages: the method
    tables of the ES2015 wrapper prototypes, built-in functions printed the
    way V8 prints them, and no description of reads on the built-in objects
    themselves (no message parsed from JSON reaches one). *)
Definition es2015 : Engine :=
  {| wrapper_method := fun p k =>
       match p with
       | ObjectP => false
       | ArrayP =>
           mem k [ "concat"; "constructor"; "copyWithin"; "entries"; "every";
                   "fill"; "filter"; "find"; "findIndex"; "forEach";
                   "indexOf"; "join"; "keys"; "lastIndexOf"; "map"; "pop";
                   "push"; "reduce"; "reduceRight"; "reverse"; "shift";
                   "slice"; "some"; "sort"; "splice"; "toLocaleString";
                   "toString"; "unshift"; "values" ]
       | StringP =>
           mem k [ "charAt"; "charCodeAt"; "codePointAt"; "concat";
                   "constructor"; "endsWith"; "includes"; "indexOf";
                   "lastIndexOf"; "localeCompare"; "match"; "normalize";
                   "repeat"; "replace"; "search"; "slice"; "split";
                   "startsWith"; "substr"; "substring"; "toLocaleLowerCase";
                   "toLocaleUpperCase"; "toLowerCase"; "toString";
                   "toUpperCase"; "trim"; "valueOf" ]
       | NumberP =>
           mem k [ "constructor"; "toExponential"; "toFixed";
                   "toLocaleString"; "toPrecision"; "toString"; "valueOf" ]
       | BooleanP => mem k [ "constructor"; "toString"; "valueOf" ]
       end;
     builtin_get := fun _ _ => None;
     builtin_text := fun b =>
       match b with
       | Method p "constructor" =>
           "function "
           ++ match p with
              | ObjectP => "Object"
              | ArrayP => "Array"
              | StringP => "String"
              | NumberP => "Number"
              | BooleanP => "Boolean"
              end
           ++ "() { [native code] }"
       | Method _ name => "function " ++ name ++ "() { [native code] }"
       | Prototype p => prototype_text p
       end |}.

(** ** Colour conversion

    The bitwise operators of JavaScript work on 32-bit integers: each operand
    is wrapped to a signed 32-bit value first, and so is the result of a left
    shift; a shift count is taken modulo 32.  The operators are given on
    integers; [JsNumber] adds the numbers that are not integers, which lose
    their fraction first. *)

Section Rgb565.
Local Open Scope Z_scope.

(** ToInt32 on an integer. *)
Definition ToInt32 (z : Z) : Z :=
  let m := z mod 2 ^ 32 in if m <? 2 ^ 31 then m else m - 2 ^ 32.

(** [a & b], [a | b], [a << n] and [a >> n]. *)
Definition js_band (a b : Z) : Z := Z.land (ToInt32 a) (ToInt32 b).
Definition js_bor (a b : Z) : Z := Z.lor (ToInt32 a) (ToInt32 b).
Definition js_shl (a n : Z) : Z := ToInt32 (Z.shiftl (ToInt32 a) (n mod 32)).
Definition js_sar (a n : Z) : Z := Z.shiftr (ToInt32 a) (n mod 32).

Definition convertRGB565ToHex (value : Z) : Z :=
  let red5 := js_sar (js_band value 0xf800) 11 in
  let green6 := js_sar (js_band value 0x7e0) 5 in
  let blue5 := js_band value 0x1f in
  js_bor
    (js_bor (js_shl (js_shl red5 3 + js_sar red5 2) 16)
            (js_shl (js_shl green6 2 + js_sar green6 4) 8))
    (js_shl blue5 3 + js_sar blue5 2).

(** A number: a fraction, not-a-number, or an infinity.  Every finite
    floating-point number is a fraction. *)
Inductive JsNumber : Type :=
| Finite (numerator : Z) (denominator : positive)
| NotANumber
| Infinite (negative : bool).

(** ToBoolean on a number. *)
Definition number_truthy (x : JsNumber) : bool :=
  match x with
  | Finite n _ => negb (Z.eqb n 0)
  | NotANumber => false
  | Infinite _ => true
  end.

(** The first step of ToInt32 on a number: not-a-number and the infinities
    give 0, any other number loses its fraction, rounding toward zero. *)
Definition integral_part (x : JsNumber) : Z :=
  match x with
  | Finite n d => Z.quot n (Z.pos d)
  | NotANumber | Infinite _ => 0
  end.

(** [convertRGB565ToCSSNotation].  The [color] package is not part of the
    sources: [color_string n] stands for [color(n).string()].  The argument
    is a number, or no number at all ([undefined], [null]), for which
    [value || 0] substitutes 0.  [convertRGB565ToHex] reads its argument
    only as an operand of [&], which converts it with ToInt32:
    [integral_part] is the first step of that conversion and
    [convertRGB565ToHex], on integers, does the rest. *)
Definition convertRGB565ToCSSNotation
    (color_string : Z -> string) (value : option JsNumber) : string :=
  color_string
    (convertRGB565ToHex
       (match value with
        | Some x => if number_truthy x then integral_part x else 0
        | None => 0
        end)).


(** The three fields of an RGB565 value, and the 8-bit level a 5-bit or a
    6-bit level is expanded to by replicating its top bits. *)
Definition red_field (v : Z) : Z := (v / 2048) mod 32.
Definition green_field (v : Z) : Z := (v / 32) mod 64.
Definition blue_field (v : Z) : Z := v mod 32.
Definition expand5 (c : Z) : Z := 8 * c + c / 4.
Definition expand6 (c : Z) : Z := 4 * c + c / 16.

End Rgb565.

(** ** Notification handlers

    The handlers registered for SYS-CLOSE and SYS-MSG.  The action creators
    [showError] and [showNotification] and the function
    [semanticsFromSeverity] are imported from modules outside the sources and
    are parameters here; a handler yields the actions it hands to
    [dispatch], in order. *)

Section NotificationHandlers.
Variable E : Engine.
Variable Action : Type.
Variable showError : JsVal -> Action.
Variable showNotification : JsVal -> Action.
Variable semanticsFromSeverity : JsVal -> JsVal.

(** [message.body && message.body.k]. *)
Definition body_and (message : JsVal) (k : string) : Completion JsVal :=
  body <- js_get E message "body" ;;
  if truthy body
  then body' <- js_get E message "body" ;; js_get E body' k
  else Return body.

Definition handle_SYS_CLOSE (message : JsVal) : Completion (list Action) :=
  guard <- body_and message "reason" ;;
  if truthy guard then
    body <- js_get E message "body" ;;
    reason <- js_get E body "reason" ;;
    Return [showError reason]
  else Return [].

Definition handle_SYS_MSG (message : JsVal) : Completion (list Action) :=
  guard <- body_and message "message" ;;
  if truthy guard then
    body <- js_get E message "body" ;;
    severity <- js_get E body "severity" ;;
    body' <- js_get E message "body" ;;
    text <- js_get E body' "message" ;;
    Return [showNotification
              (JObj [ ("message", text);
                      ("semantics", semanticsFromSeverity severity) ])]
  else Return [].

End NotificationHandlers.

(** One step of a computation in the [Completion] monad, for goals that
    list the outcomes as a disjunction whose first case is a throw. *)
Ltac run_bind x H :=
  match goal with
  | |- context [bind ?c _] =>
      destruct c as [x|?] eqn:H; simpl bind; cbv beta;
      [|left; eexists; reflexivity]
  end.

(** ** Facts about the runtime operations *)

Lemma js_prop_nullish (E : Engine) (v : JsVal) (k : string) :
  is_nullish v = true -> js_prop E v k = JUndefined.
Proof. destruct v; simpl; intros H; try discriminate; reflexivity. Qed.

Lemma js_get_defined (E : Engine) (v : JsVal) (k : string) :
  is_nullish v = false -> js_get E v k = Return (js_prop E v k).
Proof. unfold js_get; intros ->; reflexivity. Qed.

Lemma truthy_not_nullish (v : JsVal) :
  truthy v = true -> is_nullish v = false.
Proof. destruct v; simpl; intros H; try discriminate; reflexivity. Qed.

Lemma not_undefined (v : JsVal) :
  v <> JUndefined <-> is_undefined v = false.
Proof.
  destruct v; simpl; split; intros H; try reflexivity; try discriminate;
    congruence.
Qed.


Lemma has_entry_entry (E : Engine) (m : JsVal) (k : string) :
  has_entry E m k = Return (negb (is_undefined (entry E m k))).
Proof.
  unfold has_entry, entry.
  destruct (truthy m) eqn:Hm; [|reflexivity].
  rewrite js_get_defined by (apply truthy_not_nullish; assumption).
  reflexivity.
Qed.

Lemma entry_get (E : Engine) (m : JsVal) (k : string) :
  entry E m k <> JUndefined -> js_get E m k = Return (entry E m k).
Proof.
  unfold entry. destruct (truthy m) eqn:Hm; [|congruence].
  intros _. apply js_get_defined, truthy_not_nullish; assumption.
Qed.


Lemma throw_new_throws {A : Type} (E : Engine) (c : ErrorCtor) (v : JsVal) :
  exists e, @throw_new A E c v = Throw e.
Proof.
  unfold throw_new. destruct (new_error E c v); eauto.
Qed.

(** What the vocabulary means on plain objects: a map has an entry for a key
    it binds, and none when it is missing or binds nothing under a key that
    is not an inherited name. *)
Lemma entry_own (E : Engine) (props : list (string * JsVal)) (k : string)
    (v : JsVal) :
  own_property props k = Some v -> entry E (JObj props) k = v.
Proof.
  intros H. unfold entry, js_prop. simpl. rewrite H. reflexivity.
Qed.

Lemma entry_missing_map (E : Engine) (k : string) :
  entry E JUndefined k = JUndefined.
Proof. reflexivity. Qed.

Lemma entry_unbound (E : Engine) (props : list (string * JsVal)) (k : string) :
  own_property props k = None ->
  inherited E ObjectP k = None ->
  entry E (JObj props) k = JUndefined.
Proof.
  intros H Hi. unfold entry, js_prop. simpl. rewrite H, Hi. reflexivity.
Qed.

Lemma append_assoc (s1 s2 s3 : string) :
  (s1 ++ s2) ++ s3 = s1 ++ (s2 ++ s3).
Proof.
  induction s1 as [|c s1 IH]; simpl; [reflexivity|]. rewrite IH. reflexivity.
Qed.

(** The maps of a status-style response are the fields of its body. *)
Lemma get_body_field (E : Engine) (props : list (string * JsVal))
    (body : JsVal) (field : string) :
  has_dot field = false ->
  own_property props ("body." ++ field) = None ->
  own_property props "body" = Some body ->
  is_nullish body = false ->
  get E (JObj props) ("body." ++ field) = js_prop E body field.
Proof.
  intros Hdot Hlit Hbody Hnn.
  assert (Hsplit : forall acc, split_dots field acc = [acc ++ field]).
  { unfold has_dot in Hdot. clear Hlit. induction field as [|c f IH];
      intros acc; cbn [split_dots].
    - induction acc as [|a acc IHa]; simpl; congruence.
    - cbn [list_ascii_of_string existsb] in Hdot.
      apply orb_false_iff in Hdot. destruct Hdot as [Hc Hf].
      rewrite Ascii.eqb_sym, Hc. rewrite IH by exact Hf.
      rewrite append_assoc. reflexivity. }
  unfold get, castPath, js_in. simpl is_nullish. cbv iota.
  assert (Hin : find_property E (JObj props) ("body." ++ field) = None).
  { unfold find_property. rewrite Hlit. reflexivity. }
  rewrite Hin.
  assert (Hd : has_dot ("body." ++ field) = true) by reflexivity.
  rewrite Hd. simpl orb. cbv iota.
  simpl split_dots. rewrite Hsplit. simpl baseGet.
  replace (js_prop E (JObj props) "body") with body
    by (unfold js_prop, find_property; rewrite Hbody; reflexivity).
  rewrite Hnn. reflexivity.
Qed.

(** A message whose type tag is a string has a body, and the reads of the
    extractor's prologue succeed. *)
Lemma response_type_prologue (E : Engine) (message : JsVal) (t : string) :
  response_type E message = JStr t ->
  is_nullish message = false /\ is_nullish (js_prop E message "body") = false.
Proof.
  unfold response_type. intros H.
  destruct (is_nullish (js_prop E message "body")) eqn:Hb.
  - rewrite (js_prop_nullish E _ "type" Hb) in H. discriminate.
  - split; [|reflexivity].
    destruct (is_nullish message) eqn:Hm; [|reflexivity].
    rewrite (js_prop_nullish E _ "body" Hm) in Hb. discriminate.
Qed.

Lemma receipt_types_listed :
  receipt_types =
  [ "OBJ-CMD"; "UAV-FLY"; "UAV-HALT"; "UAV-LAND"; "UAV-RST"; "UAV-RTH";
    "UAV-SIGNAL"; "UAV-TAKEOFF" ].
Proof. reflexivity. Qed.

Lemma receipt_type_known (E : Engine) (t : string) :
  In t receipt_types ->
  strict_eq_str (JStr t) "ACK-NAK" = false /\
  js_get_computed E MESSAGES_WITH_RECEIPTS (JStr t) = Return (JBool true).
Proof.
  rewrite receipt_types_listed. simpl.
  intros [<-|[<-|[<-|[<-|[<-|[<-|[<-|[<-|[]]]]]]]]]; split; reflexivity.
Qed.

(** The extractor on a message of a listed type: the three guards in their
    order. *)
Lemma extract_listed (E : Engine) (message : JsVal) (uavId t : string) :
  response_type E message = JStr t ->
  In t receipt_types ->
  extractResultOrReceiptFromMaybeAsyncResponse E message uavId =
  let error := entry E (body_field E message "error") uavId in
  let result := entry E (body_field E message "result") uavId in
  let receipt := entry E (body_field E message "receipt") uavId in
  if negb (is_undefined error) then
    throw_new E Error_ (js_or error (JStr failure_default))
  else if negb (is_undefined result) then
    Return (JObj [("result", result)])
  else if negb (is_undefined receipt) then
    Return (JObj [("receipt", receipt)])
  else Throw (Thrown Error_ missing_outcome_message).
Proof.
  intros Ht Hin.
  destruct (response_type_prologue E message t Ht) as [Hm Hb].
  destruct (receipt_type_known E t Hin) as [Hneq Hknown].
  unfold extractResultOrReceiptFromMaybeAsyncResponse, body_field.
  rewrite (js_get_defined E message "body" Hm). simpl bind.
  rewrite !(js_get_defined E _ _ Hb). simpl bind.
  unfold response_type in Ht. rewrite Ht, Hneq, Hknown. simpl bind.
  cbv iota beta. simpl truthy. cbv iota.
  set (body := js_prop E message "body") in *.
  rewrite !has_entry_entry. simpl bind.
  destruct (is_undefined (entry E (js_prop E body "error") uavId)) eqn:He;
    simpl negb; cbv iota.
  - destruct (is_undefined (entry E (js_prop E body "result") uavId)) eqn:Hr;
      simpl negb; cbv iota.
    + destruct (is_undefined (entry E (js_prop E body "receipt") uavId))
        eqn:Hc; simpl negb; cbv iota.
      * reflexivity.
      * rewrite entry_get by (apply not_undefined; assumption). reflexivity.
    + rewrite entry_get by (apply not_undefined; assumption). reflexivity.
  - rewrite entry_get by (apply not_undefined; assumption). reflexivity.
Qed.

(** What the guards see on plain maps: an entry the map binds itself is
    found; a key it does not bind is found only when it is an inherited
    name. *)
Lemma inherited_name_none (E : Engine) (k : string) :
  inherited_name k = false -> inherited E ObjectP k = None.
Proof.
  unfold inherited_name, inherited. intros H.
  apply orb_false_iff in H. destruct H as [-> ->]. reflexivity.
Qed.


Lemma entry_of_own (E : Engine) (m : JsVal) (k : string) (v : JsVal) :
  own_entry m k = Some v -> entry E m k = v.
Proof.
  destruct m; simpl; try discriminate. intros H.
  unfold entry, js_prop. simpl. rewrite H. reflexivity.
Qed.

Lemma entry_without_own (E : Engine) (m : JsVal) (k : string) :
  inherited_name k = false ->
  map_or_falsy m = true ->
  own_entry m k = None ->
  entry E m k = JUndefined.
Proof.
  intros Hk Hm Hown. unfold entry.
  destruct (truthy m) eqn:Ht; [|reflexivity].
  destruct m; try (unfold map_or_falsy in Hm; rewrite Ht in Hm; discriminate).
  simpl in Hown. unfold js_prop. simpl.
  rewrite Hown, (inherited_name_none E k Hk). reflexivity.
Qed.

(** ** The command-response extractor *)

(** C1, as the claim states it, fails on a message of the documented wire
    shape [{ type: "ACK-NAK", body: { reason: "busy" } }]: the extractor
    reads the type tag from the body, finds none, and reports an unsupported
    type instead of the rejection reason. *)
Lemma C1_message_level_type_is_not_read :
  extractResultOrReceiptFromMaybeAsyncResponse es2015
    (JObj [ ("type", JStr "ACK-NAK");
            ("body", JObj [("reason", JStr "busy")]) ]) "a"
  = Throw (Thrown Error_ "undefined messages do not contain receipts")
  /\ extractResultOrReceiptFromMaybeAsyncResponse es2015
       (JObj [ ("type", JStr "ACK-NAK");
               ("body", JObj [("reason", JStr "busy")]) ]) "a"
     <> Throw (Thrown Error_ "busy").
Proof. split; [reflexivity | discriminate]. Qed.

(** C1, amended: when the type tag carried in the body, [message.body.type],
    is ACK-NAK, then for every target id the extractor throws an [Error]
    whose message is the reason given in the body, [message.body.reason];
    the generic text is used when the reason is absent or otherwise falsy
    (such as the empty string). *)
Theorem C1_rejection_by_body_type
    (E : Engine) (message : JsVal) (uavId : string) :
  response_type E message = JStr "ACK-NAK" ->
  let reason := body_field E message "reason" in
  let r := extractResultOrReceiptFromMaybeAsyncResponse E message uavId in
  (forall s, reason = JStr s -> s <> "" -> r = Throw (Thrown Error_ s))
  /\ (truthy reason = false -> r = Throw (Thrown Error_ rejection_default))
  /\ r = throw_new E Error_ (js_or reason (JStr rejection_default)).
Proof.
  intros Ht reason r.
  destruct (response_type_prologue E message _ Ht) as [Hm Hb].
  assert (Hr : r = throw_new E Error_ (js_or reason (JStr rejection_default))).
  { subst r reason.
    unfold extractResultOrReceiptFromMaybeAsyncResponse, body_field.
    rewrite (js_get_defined E message "body" Hm). simpl bind.
    rewrite !(js_get_defined E _ _ Hb). simpl bind.
    unfold response_type in Ht. rewrite Ht. reflexivity. }
  split; [|split]; [| |exact Hr].
  - intros s Hs Hne. rewrite Hr, Hs. unfold js_or. simpl truthy.
    destruct (String.eqb_spec s ""); [contradiction|reflexivity].
  - intros Hf. rewrite Hr. unfold js_or. rewrite Hf. reflexivity.
Qed.

(** A rejection that carries its tag and the reason "busy" in the body. *)
Lemma C1_rejection_by_body_type_witness :
  extractResultOrReceiptFromMaybeAsyncResponse es2015
    (JObj [("body", JObj [("type", JStr "ACK-NAK"); ("reason", JStr "busy")])])
    "drone-7"
  = Throw (Thrown Error_ "busy").
Proof.
  refine (proj1 (C1_rejection_by_body_type es2015
    (JObj [("body", JObj [("type", JStr "ACK-NAK"); ("reason", JStr "busy")])])
    "drone-7" _) "busy" _ _).
  - reflexivity.
  - reflexivity.
  - discriminate.
Defined.

(** C2 fails for a target id that names a property every object inherits.
    With the id "constructor", an empty error map (no entry) and a result
    map that binds the id to 5, the guard [error[uavId] !== undefined] finds
    the inherited function: the call throws an [Error] made from it instead
    of returning the result. *)
Lemma C2_inherited_id_breaks_precedence :
  own_entry (JObj []) "constructor" = None
  /\ own_entry (JObj [("constructor", JNum 5)]) "constructor" = Some (JNum 5)
  /\ extractResultOrReceiptFromMaybeAsyncResponse es2015
       (JObj [("body", JObj [ ("type", JStr "UAV-LAND");
                              ("error", JObj []);
                              ("result", JObj [("constructor", JNum 5)]) ])])
       "constructor"
     = Throw (Thrown Error_ "function Object() { [native code] }").
Proof. repeat split; reflexivity. Qed.

(** X19: the order of the three maps, for target ids that are not inherited
    names.  On a response of a listed type whose error, result and receipt
    fields are plain maps or missing, an entry of the error map makes the
    call throw an [Error] built from it (the entry, or the generic failure
    text when the entry is falsy) whatever the other maps hold; with no error
    entry, an entry of the result map is returned as [{ result: value }]
    whatever the receipt map holds; with neither, an entry of the receipt map
    is returned as [{ receipt: token }]. *)
Theorem precedence_over_own_entries
    (E : Engine) (message : JsVal) (uavId t : string) :
  response_type E message = JStr t ->
  In t receipt_types ->
  inherited_name uavId = false ->
  let error := body_field E message "error" in
  let result := body_field E message "result" in
  let receipt := body_field E message "receipt" in
  let r := extractResultOrReceiptFromMaybeAsyncResponse E message uavId in
  map_or_falsy error = true ->
  map_or_falsy result = true ->
  map_or_falsy receipt = true ->
  (forall v, own_entry error uavId = Some v -> v <> JUndefined ->
     r = throw_new E Error_ (js_or v (JStr failure_default))
     /\ (forall s, v = JStr s -> s <> "" -> r = Throw (Thrown Error_ s))
     /\ (truthy v = false -> r = Throw (Thrown Error_ failure_default)))
  /\ (forall v, own_entry error uavId = None ->
        own_entry result uavId = Some v -> v <> JUndefined ->
        r = Return (JObj [("result", v)]))
  /\ (forall v, own_entry error uavId = None ->
        own_entry result uavId = None ->
        own_entry receipt uavId = Some v -> v <> JUndefined ->
        r = Return (JObj [("receipt", v)])).
Proof.
  intros Ht Hin Hid error result receipt r Hme Hmr Hmc.
  pose proof (extract_listed E message uavId t Ht Hin) as H.
  cbv zeta in H. fold error result receipt r in H.
  split; [|split].
  - intros v Hown Hdef. rewrite (entry_of_own E error uavId v Hown) in H.
    apply not_undefined in Hdef. rewrite Hdef in H. simpl negb in H.
    cbv iota in H. split; [exact H|]. split.
    + intros s -> Hne. rewrite H. unfold js_or. simpl truthy.
      destruct (String.eqb_spec s ""); [contradiction|reflexivity].
    + intros Hf. rewrite H. unfold js_or. rewrite Hf. reflexivity.
  - intros v He Hown Hdef.
    rewrite (entry_without_own E error uavId Hid Hme He) in H.
    rewrite (entry_of_own E result uavId v Hown) in H.
    apply not_undefined in Hdef. rewrite Hdef in H. exact H.
  - intros v He Hr Hown Hdef.
    rewrite (entry_without_own E error uavId Hid Hme He) in H.
    rewrite (entry_without_own E result uavId Hid Hmr Hr) in H.
    rewrite (entry_of_own E receipt uavId v Hown) in H.
    apply not_undefined in Hdef. rewrite Hdef in H. exact H.
Qed.

(** A landing response with all three entries for the target, then without
    the error entry, then with the receipt alone. *)
Lemma precedence_over_own_entries_witness :
  extractResultOrReceiptFromMaybeAsyncResponse es2015
    (JObj [("body", JObj [ ("type", JStr "UAV-LAND");
                           ("receipt", JObj [("a", JStr "tok1")]);
                           ("result", JObj [("a", JNum 1)]);
                           ("error", JObj [("a", JStr "battery low")]) ])])
    "a"
  = Throw (Thrown Error_ "battery low")
  /\ extractResultOrReceiptFromMaybeAsyncResponse es2015
       (JObj [("body", JObj [ ("type", JStr "UAV-LAND");
                              ("receipt", JObj [("a", JStr "tok1")]);
                              ("result", JObj [("a", JNum 1)]) ])])
       "a"
     = Return (JObj [("result", JNum 1)])
  /\ extractResultOrReceiptFromMaybeAsyncResponse es2015
       (JObj [("body", JObj [ ("type", JStr "UAV-LAND");
                              ("receipt", JObj [("a", JStr "tok1")]) ])])
       "a"
     = Return (JObj [("receipt", JStr "tok1")]).
Proof.
  split; [|split].
  - refine (proj1 (proj2 (proj1 (precedence_over_own_entries es2015 _ "a"
      "UAV-LAND" _ _ _ _ _ _) (JStr "battery low") _ _)) "battery low" _ _).
    + reflexivity.
    + simpl; tauto.
    + reflexivity.
    + reflexivity.
    + reflexivity.
    + reflexivity.
    + reflexivity.
    + discriminate.
    + reflexivity.
    + discriminate.
  - refine (proj1 (proj2 (precedence_over_own_entries es2015 _ "a"
      "UAV-LAND" _ _ _ _ _ _)) (JNum 1) _ _ _).
    + reflexivity.
    + simpl; tauto.
    + reflexivity.
    + reflexivity.
    + reflexivity.
    + reflexivity.
    + reflexivity.
    + reflexivity.
    + discriminate.
  - refine (proj2 (proj2 (precedence_over_own_entries es2015 _ "a"
      "UAV-LAND" _ _ _ _ _ _)) (JStr "tok1") _ _ _ _).
    + reflexivity.
    + simpl; tauto.
    + reflexivity.
    + reflexivity.
    + reflexivity.
    + reflexivity.
    + reflexivity.
    + reflexivity.
    + reflexivity.
    + discriminate.
Defined.

(** Which type tags the lookup in [MESSAGES_WITH_RECEIPTS] accepts: the
    eight listed ones, and the names every object inherits. *)
Lemma known_type_iff (E : Engine) (t : string) :
  truthy (js_prop E MESSAGES_WITH_RECEIPTS t) = true <->
  In t receipt_types \/ In t Object_prototype_methods \/ t = "__proto__".
Proof.
  rewrite receipt_types_listed.
  unfold js_prop, MESSAGES_WITH_RECEIPTS, find_property, own_property.
  repeat match goal with
  | |- context [String.eqb ?a t] =>
      destruct (String.eqb_spec a t);
        [subst t; split; [intros _; simpl; tauto | reflexivity]|]
  end.
  unfold inherited.
  destruct (String.eqb_spec t "__proto__").
  - split; [intros _; tauto | reflexivity].
  - destruct (mem t Object_prototype_methods) eqn:Hmem.
    + split; [intros _ | reflexivity].
      right; left. unfold mem in Hmem. apply existsb_exists in Hmem.
      destruct Hmem as [x [Hx Heq]]. apply String.eqb_eq in Heq. subst x.
      exact Hx.
    + split; [discriminate|].
      intros [H|[H|H]].
      * simpl in H. intuition congruence.
      * assert (mem t Object_prototype_methods = true); [|congruence].
        unfold mem. apply existsb_exists. exists t. split; [exact H|].
        apply String.eqb_refl.
      * contradiction.
Qed.

(** A string tag that is neither ACK-NAK nor accepted by the lookup is
    answered with the unsupported-type error, whatever the body holds. *)
Lemma unknown_type_unsupported
    (E : Engine) (message : JsVal) (uavId t : string) :
  response_type E message = JStr t ->
  t <> "ACK-NAK" ->
  truthy (js_prop E MESSAGES_WITH_RECEIPTS t) = false ->
  extractResultOrReceiptFromMaybeAsyncResponse E message uavId
  = Throw (Thrown Error_ (unsupported_message t)).
Proof.
  intros Ht Hneq Hunknown.
  destruct (response_type_prologue E message t Ht) as [Hm Hb].
  unfold extractResultOrReceiptFromMaybeAsyncResponse.
  rewrite (js_get_defined E message "body" Hm). simpl bind.
  rewrite (js_get_defined E _ "type" Hb). simpl bind.
  unfold response_type in Ht. rewrite Ht.
  unfold strict_eq_str. destruct (String.eqb_spec t "ACK-NAK");
    [contradiction|].
  unfold js_get_computed. simpl ToString. simpl bind.
  rewrite Hunknown. reflexivity.
Qed.

(** C3 holds for the eight listed tags but not "exactly": a tag that names a
    property inherited from [Object.prototype], such as "constructor", is
    neither ACK-NAK nor listed, yet the lookup [MESSAGES_WITH_RECEIPTS[type]]
    finds the inherited function, which is truthy, and the response is
    treated as receipt-bearing: the outcome is read from its result map
    instead of the unsupported-type error. *)
Lemma C3_inherited_name_taken_for_receipt_type :
  ~ In "constructor" receipt_types
  /\ extractResultOrReceiptFromMaybeAsyncResponse es2015
       (JObj [("body", JObj [ ("type", JStr "constructor");
                              ("result", JObj [("a", JNum 1)]) ])])
       "a"
     = Return (JObj [("result", JNum 1)]).
Proof.
  split; [|reflexivity].
  rewrite receipt_types_listed. simpl. intuition discriminate.
Qed.

Lemma last_unit_app (s1 s2 : string) :
  s2 <> "" -> last_unit (s1 ++ s2) = last_unit s2.
Proof.
  intros Hne. induction s1 as [|c s1 IH]; [reflexivity|].
  simpl. rewrite IH.
  destruct (s1 ++ s2) eqn:Happ; [|reflexivity].
  destruct s1; simpl in Happ; [contradiction|discriminate].
Qed.

Lemma unsupported_is_not_missing_outcome (type_text : string) :
  unsupported_message type_text <> missing_outcome_message.
Proof.
  intros H. apply (f_equal last_unit) in H.
  unfold unsupported_message in H.
  rewrite last_unit_app in H by discriminate.
  discriminate H.
Qed.

(** C4 fails for a target id that names a property every object inherits.
    With the id "constructor" and an empty result map, none of the three
    maps has an entry, yet the guard [result[uavId] !== undefined] finds the
    inherited function and the call returns it as a result instead of
    throwing the missing-outcome error. *)
Lemma C4_inherited_id_is_taken_for_result :
  own_entry (JObj []) "constructor" = None
  /\ extractResultOrReceiptFromMaybeAsyncResponse es2015
       (JObj [("body", JObj [ ("type", JStr "UAV-LAND");
                              ("result", JObj []) ])])
       "constructor"
     = Return (JObj [("result", JBuiltin (Method ObjectP "constructor"))]).
Proof. split; reflexivity. Qed.

(** X20: on a response of a listed type whose error, result and receipt
    fields are plain maps or missing, a target id that is not an inherited
    name and that none of the three maps binds makes the call throw an
    [Error] with the fixed missing-outcome text; that text differs from the
    unsupported-type text of every type tag. *)
Theorem missing_outcome_without_own_entries
    (E : Engine) (message : JsVal) (uavId t : string) :
  response_type E message = JStr t ->
  In t receipt_types ->
  inherited_name uavId = false ->
  let error := body_field E message "error" in
  let result := body_field E message "result" in
  let receipt := body_field E message "receipt" in
  map_or_falsy error = true -> own_entry error uavId = None ->
  map_or_falsy result = true -> own_entry result uavId = None ->
  map_or_falsy receipt = true -> own_entry receipt uavId = None ->
  extractResultOrReceiptFromMaybeAsyncResponse E message uavId
  = Throw (Thrown Error_
      "Server did not provide a response or receipt for the command")
  /\ (forall type_text,
        "Server did not provide a response or receipt for the command"
        <> type_text ++ " messages do not contain receipts").
Proof.
  intros Ht Hin Hid error result receipt Hme He Hmr Hr Hmc Hc.
  split.
  - rewrite (extract_listed E message uavId t Ht Hin). cbv zeta.
    fold error result receipt.
    rewrite (entry_without_own E error uavId Hid Hme He).
    rewrite (entry_without_own E result uavId Hid Hmr Hr).
    rewrite (entry_without_own E receipt uavId Hid Hmc Hc).
    reflexivity.
  - intros type_text H. symmetry in H.
    exact (unsupported_is_not_missing_outcome type_text H).
Qed.

(** A take-off response whose maps answer other targets only. *)
Lemma missing_outcome_without_own_entries_witness :
  extractResultOrReceiptFromMaybeAsyncResponse es2015
    (JObj [("body", JObj [ ("type", JStr "UAV-TAKEOFF");
                           ("result", JObj [("b", JNum 1)]);
                           ("receipt", JObj [("c", JStr "tok1")]) ])])
    "a"
  = Throw (Thrown Error_
      "Server did not provide a response or receipt for the command").
Proof.
  refine (proj1 (missing_outcome_without_own_entries es2015 _ "a"
    "UAV-TAKEOFF" _ _ _ _ _ _ _ _ _)); try reflexivity.
  simpl; tauto.
Defined.

(** C5: on a response of a listed receipt-bearing type, an error entry for
    the target that is present but falsy (the empty string, [null], [false],
    [0]) makes the extractor throw an [Error] with the generic failure text,
    not with the falsy entry. *)
Theorem C5_falsy_error_entry_gets_generic_text
    (E : Engine) (message : JsVal) (uavId t : string) (v : JsVal) :
  response_type E message = JStr t ->
  In t receipt_types ->
  entry E (body_field E message "error") uavId = v ->
  v <> JUndefined ->
  truthy v = false ->
  extractResultOrReceiptFromMaybeAsyncResponse E message uavId
  = Throw (Thrown Error_ failure_default).
Proof.
  intros Ht Hin Hv Hdef Hfalsy.
  rewrite (extract_listed E message uavId t Ht Hin). cbv zeta.
  rewrite Hv. apply not_undefined in Hdef. rewrite Hdef. simpl negb.
  cbv iota. unfold js_or. rewrite Hfalsy. reflexivity.
Qed.

(** The four falsy entries of the claim, each next to a result entry. *)
Lemma C5_falsy_error_entry_gets_generic_text_witness :
  Forall
    (fun v =>
       extractResultOrReceiptFromMaybeAsyncResponse es2015
         (JObj [("body", JObj [ ("type", JStr "OBJ-CMD");
                                ("error", JObj [("a", v)]);
                                ("result", JObj [("a", JNum 1)]) ])])
         "a"
       = Throw (Thrown Error_ failure_default))
    [JStr ""; JNull; JBool false; JNum 0].
Proof.
  apply Forall_cons; [|apply Forall_cons; [|apply Forall_cons;
    [|apply Forall_cons; [|apply Forall_nil]]]].
  - refine (C5_falsy_error_entry_gets_generic_text es2015 _ "a" "OBJ-CMD"
              (JStr "") _ _ _ _ _);
      [reflexivity | simpl; tauto | reflexivity | discriminate | reflexivity].
  - refine (C5_falsy_error_entry_gets_generic_text es2015 _ "a" "OBJ-CMD"
              JNull _ _ _ _ _);
      [reflexivity | simpl; tauto | reflexivity | discriminate | reflexivity].
  - refine (C5_falsy_error_entry_gets_generic_text es2015 _ "a" "OBJ-CMD"
              (JBool false) _ _ _ _ _);
      [reflexivity | simpl; tauto | reflexivity | discriminate | reflexivity].
  - refine (C5_falsy_error_entry_gets_generic_text es2015 _ "a" "OBJ-CMD"
              (JNum 0) _ _ _ _ _);
      [reflexivity | simpl; tauto | reflexivity | discriminate | reflexivity].
Defined.

Lemma has_entry_true (E : Engine) (m : JsVal) (k : string) :
  has_entry E m k = Return true ->
  entry E m k <> JUndefined /\ js_get E m k = Return (entry E m k).
Proof.
  rewrite has_entry_entry. intros H. injection H as H.
  apply negb_true_iff in H. apply not_undefined in H.
  split; [exact H | apply entry_get; exact H].
Qed.

Lemma populated_only_result (E : Engine) (v : JsVal) :
  v <> JUndefined ->
  populated E (JObj [("result", v)]) "result" = true
  /\ populated E (JObj [("result", v)]) "receipt" = false.
Proof.
  intros H. apply not_undefined in H. unfold populated, js_prop. simpl.
  rewrite H. split; reflexivity.
Qed.

Lemma populated_only_receipt (E : Engine) (v : JsVal) :
  v <> JUndefined ->
  populated E (JObj [("receipt", v)]) "receipt" = true
  /\ populated E (JObj [("receipt", v)]) "result" = false.
Proof.
  intros H. apply not_undefined in H. unfold populated, js_prop. simpl.
  rewrite H. split; reflexivity.
Qed.

(** C6: one call of the extractor yields exactly one kind of outcome.  It
    throws, or it returns an object that carries the [result] tag alone, or
    it returns an object that carries the [receipt] tag alone; a returned
    object never carries both tags and never carries neither. *)
Theorem C6_exactly_one_outcome_tag
    (E : Engine) (message : JsVal) (uavId : string) :
  let r := extractResultOrReceiptFromMaybeAsyncResponse E message uavId in
  (exists e, r = Throw e)
  \/ (exists v, r = Return (JObj [("result", v)])
        /\ v <> JUndefined
        /\ populated E (JObj [("result", v)]) "result" = true
        /\ populated E (JObj [("result", v)]) "receipt" = false)
  \/ (exists v, r = Return (JObj [("receipt", v)])
        /\ v <> JUndefined
        /\ populated E (JObj [("receipt", v)]) "receipt" = true
        /\ populated E (JObj [("receipt", v)]) "result" = false).
Proof.
  cbv zeta. unfold extractResultOrReceiptFromMaybeAsyncResponse.
  run_bind body Hbody.
  run_bind type Htype.
  destruct (strict_eq_str type "ACK-NAK").
  { run_bind reason Hreason. left. apply throw_new_throws. }
  run_bind known Hknown.
  destruct (truthy known).
  2:{ run_bind text Htext. left. apply throw_new_throws. }
  run_bind err Herr.
  run_bind rcp Hrcp.
  run_bind res Hres.
  run_bind in_error Hin_error.
  destruct in_error.
  { run_bind ent Hent. left. apply throw_new_throws. }
  run_bind in_result Hin_result.
  destruct in_result.
  { destruct (has_entry_true E _ _ Hin_result) as [Hdef Hget].
    rewrite Hget. simpl bind. right; left.
    exists (entry E res uavId).
    split; [reflexivity|]. split; [exact Hdef|].
    apply populated_only_result; exact Hdef. }
  run_bind in_receipt Hin_receipt.
  destruct in_receipt.
  { destruct (has_entry_true E _ _ Hin_receipt) as [Hdef Hget].
    rewrite Hget. simpl bind. right; right.
    exists (entry E rcp uavId).
    split; [reflexivity|]. split; [exact Hdef|].
    apply populated_only_receipt; exact Hdef. }
  left. apply throw_new_throws.
Qed.

(** ** The status-response extractor *)



Lemma default_options_error (E : Engine) :
  js_get E (JObj []) "error" = Return JUndefined.
Proof. reflexivity. Qed.


(** The extractor when the error map has no entry for the id. *)
Lemma extractResponseForId_no_error (E : Engine) (message : JsVal)
    (id : string) (options : JsVal) :
  has_object_entry E (error_map E message) id = Return false ->
  extractResponseForId E message id options =
  in_results <- has_object_entry E (status_map E message) id ;;
  if in_results then js_get E (status_map E message) id
  else Throw (Thrown Error_ (inconsistency_message id)).
Proof.
  intros H. unfold extractResponseForId.
  fold (error_map E message) (status_map E message).
  rewrite H. reflexivity.
Qed.













(** C9 fails for a requested id that names a property every object
    inherits.  With the id "toString" and empty error and status maps,
    neither map has an entry, yet the guard on the error map finds the
    inherited function and the call throws the generic failure of the error
    branch, not the internal-inconsistency error; with no error field at all
    the guard on the status map finds it, and the call returns it. *)
Lemma C9_inherited_id_takes_error_branch :
  own_entry (JObj []) "toString" = None
  /\ extractResponseForId es2015
       (JObj [("body", JObj [("status", JObj []); ("error", JObj [])])])
       "toString" JUndefined
     = Throw (Thrown Error_
         "Failed to retrieve result for ID toString from response")
  /\ extractResponseForId es2015
       (JObj [("body", JObj [("status", JObj [])])]) "toString" JUndefined
     = Return (JBuiltin (Method ObjectP "toString")).
Proof. repeat split; reflexivity. Qed.



(** C10 fails when the status field is [null] next to an error field that
    is not of object type: [typeof null] is 'object', the read of the id on
    [null] throws the runtime's own [TypeError], and the call ends with
    neither a status entry nor the internal-inconsistency error.  It also
    fails for an id that names an inherited property: with the id "valueOf"
    and an empty status map the call returns the inherited function. *)
Lemma C10_null_status_throws_runtime_error :
  js_typeof (error_map es2015
              (JObj [("body", JObj [("error", JStr "x"); ("status", JNull)])]))
  = "string"
  /\ extractResponseForId es2015
       (JObj [("body", JObj [("error", JStr "x"); ("status", JNull)])])
       "a" JUndefined
     = Throw EngineTypeError
  /\ own_entry (JObj []) "valueOf" = None
  /\ extractResponseForId es2015
       (JObj [("body", JObj [("error", JStr "x"); ("status", JObj [])])])
       "valueOf" JUndefined
     = Return (JBuiltin (Method ObjectP "valueOf")).
Proof. repeat split; reflexivity. Qed.



(** ** The colour conversion *)

Section Rgb565Facts.
Local Open Scope Z_scope.

Lemma ToInt32_small (z : Z) : - 2 ^ 31 <= z < 2 ^ 31 -> ToInt32 z = z.
Proof.
  intros H. unfold ToInt32. cbv zeta.
  change (2 ^ 32) with 4294967296 in *. change (2 ^ 31) with 2147483648 in *.
  destruct (Z.ltb_spec (z mod 4294967296) 2147483648);
    Z.div_mod_to_equations; lia.
Qed.

Lemma ToInt32_mod16 (v : Z) : ToInt32 v mod 65536 = v mod 65536.
Proof.
  unfold ToInt32. cbv zeta.
  change (2 ^ 32) with 4294967296 in *. change (2 ^ 31) with 2147483648 in *.
  destruct (Z.ltb_spec (v mod 4294967296) 2147483648);
    Z.div_mod_to_equations; lia.
Qed.

Lemma land_low16 (x m : Z) :
  0 <= m < 65536 -> Z.land x m = Z.land (x mod 65536) m.
Proof.
  intros Hm.
  assert (Hmm : m = Z.land (Z.ones 16) m).
  { rewrite Z.land_comm, Z.land_ones by lia. change (2 ^ 16) with 65536.
    rewrite Z.mod_small; lia. }
  rewrite Hmm at 1. rewrite Z.land_assoc, Z.land_ones by lia. reflexivity.
Qed.

Lemma js_band_mask (v m : Z) :
  0 <= m < 65536 -> js_band v m = Z.land (v mod 65536) m.
Proof.
  intros Hm. unfold js_band. rewrite (ToInt32_small m) by lia.
  rewrite land_low16 by exact Hm. rewrite ToInt32_mod16. reflexivity.
Qed.

(** A mask of the bits from [lo] up to [hi] cuts that window out. *)
Lemma land_window (w hi lo : Z) :
  0 <= lo <= hi ->
  Z.land w (Z.ldiff (Z.ones hi) (Z.ones lo))
  = (w mod 2 ^ hi) / 2 ^ lo * 2 ^ lo.
Proof.
  intros H.
  rewrite Z.ldiff_land, Z.land_assoc, <- Z.ldiff_land.
  rewrite Z.land_ones by lia. rewrite Z.ldiff_ones_r by lia.
  rewrite Z.shiftr_div_pow2, Z.shiftl_mul_pow2 by lia. reflexivity.
Qed.

Lemma js_sar_small (a n : Z) :
  0 <= n < 32 -> - 2 ^ 31 <= a < 2 ^ 31 -> js_sar a n = a / 2 ^ n.
Proof.
  intros Hn Ha. unfold js_sar. rewrite ToInt32_small by exact Ha.
  rewrite Z.mod_small by lia. apply Z.shiftr_div_pow2. lia.
Qed.

Lemma js_shl_small (a n : Z) :
  0 <= n < 32 -> - 2 ^ 31 <= a < 2 ^ 31 -> - 2 ^ 31 <= a * 2 ^ n < 2 ^ 31 ->
  js_shl a n = a * 2 ^ n.
Proof.
  intros Hn Ha Hr. unfold js_shl. rewrite (ToInt32_small a) by exact Ha.
  rewrite Z.mod_small by lia. rewrite Z.shiftl_mul_pow2 by lia.
  apply ToInt32_small. exact Hr.
Qed.

(** Or-ing a value below [2 ^ n] into a multiple of [2 ^ n] adds it. *)
Lemma lor_shifted (x y n : Z) :
  0 <= n -> 0 <= y < 2 ^ n -> Z.lor (x * 2 ^ n) y = x * 2 ^ n + y.
Proof.
  intros Hn Hy.
  assert (Hland : Z.land (x * 2 ^ n) y = 0).
  { apply Z.bits_inj'. intros i Hi. rewrite Z.land_spec, Z.bits_0.
    destruct (Z.lt_ge_cases i n) as [Hlt|Hge].
    - rewrite Z.mul_pow2_bits_low by exact Hlt. reflexivity.
    - rewrite <- (Z.mod_small y (2 ^ n)) by exact Hy.
      rewrite Z.mod_pow2_bits_high by lia. apply andb_false_r. }
  rewrite <- Z.lxor_lor by exact Hland. symmetry.
  apply Z.add_nocarry_lxor. exact Hland.
Qed.

Lemma js_bor_shifted (x y n : Z) :
  0 <= n -> 0 <= y < 2 ^ n -> 0 <= x -> x * 2 ^ n + y < 2 ^ 31 ->
  js_bor (x * 2 ^ n) y = x * 2 ^ n + y.
Proof.
  intros Hn Hy Hx Hr. unfold js_bor.
  assert (0 <= x * 2 ^ n) by (apply Z.mul_nonneg_nonneg; lia).
  rewrite !ToInt32_small by lia. apply lor_shifted; assumption.
Qed.

Lemma red5_field (v : Z) : js_sar (js_band v 0xf800) 11 = red_field v.
Proof.
  rewrite js_band_mask by lia.
  change 0xf800 with (Z.ldiff (Z.ones 16) (Z.ones 11)).
  rewrite land_window by lia.
  change (2 ^ 16) with 65536. change (2 ^ 11) with 2048.
  rewrite Z.mod_mod by lia.
  rewrite js_sar_small; change (2 ^ 11) with 2048;
    change (2 ^ 31) with 2147483648; unfold red_field;
    Z.div_mod_to_equations; lia.
Qed.

Lemma green6_field (v : Z) : js_sar (js_band v 0x7e0) 5 = green_field v.
Proof.
  rewrite js_band_mask by lia.
  change 0x7e0 with (Z.ldiff (Z.ones 11) (Z.ones 5)).
  rewrite land_window by lia.
  change (2 ^ 11) with 2048. change (2 ^ 5) with 32.
  rewrite js_sar_small; change (2 ^ 5) with 32;
    change (2 ^ 31) with 2147483648; unfold green_field;
    Z.div_mod_to_equations; lia.
Qed.

Lemma blue5_field (v : Z) : js_band v 0x1f = blue_field v.
Proof.
  rewrite js_band_mask by lia.
  change 0x1f with (Z.ones 5). rewrite Z.land_ones by lia.
  change (2 ^ 5) with 32. unfold blue_field. Z.div_mod_to_equations; lia.
Qed.

Lemma expand5_js (c : Z) : 0 <= c < 32 -> js_shl c 3 + js_sar c 2 = expand5 c.
Proof.
  intros Hc. rewrite js_shl_small, js_sar_small;
    change (2 ^ 3) with 8; change (2 ^ 2) with 4;
    change (2 ^ 31) with 2147483648; unfold expand5; lia.
Qed.

Lemma expand6_js (c : Z) : 0 <= c < 64 -> js_shl c 2 + js_sar c 4 = expand6 c.
Proof.
  intros Hc. rewrite js_shl_small, js_sar_small;
    change (2 ^ 2) with 4; change (2 ^ 4) with 16;
    change (2 ^ 31) with 2147483648; unfold expand6; lia.
Qed.

Lemma expand5_range (c : Z) : 0 <= c < 32 -> 0 <= expand5 c <= 255.
Proof. unfold expand5. intros H. Z.div_mod_to_equations; lia. Qed.

Lemma expand6_range (c : Z) : 0 <= c < 64 -> 0 <= expand6 c <= 255.
Proof. unfold expand6. intros H. Z.div_mod_to_equations; lia. Qed.

Lemma fields_range (v : Z) :
  0 <= red_field v < 32 /\ 0 <= green_field v < 64 /\ 0 <= blue_field v < 32.
Proof.
  unfold red_field, green_field, blue_field. Z.div_mod_to_equations; lia.
Qed.

Lemma fields_compose (v : Z) :
  v mod 65536 = 2048 * red_field v + 32 * green_field v + blue_field v.
Proof.
  unfold red_field, green_field, blue_field. Z.div_mod_to_equations; lia.
Qed.

(** The conversion in arithmetic: the three expanded levels, one per byte. *)
Lemma convertRGB565ToHex_sum (v : Z) :
  convertRGB565ToHex v =
  65536 * expand5 (red_field v) + 256 * expand6 (green_field v)
  + expand5 (blue_field v).
Proof.
  unfold convertRGB565ToHex. cbv zeta.
  rewrite red5_field, green6_field, blue5_field.
  destruct (fields_range v) as [Hr [Hg Hb]].
  rewrite !expand5_js, expand6_js by assumption.
  pose proof (expand5_range _ Hr). pose proof (expand6_range _ Hg).
  pose proof (expand5_range _ Hb).
  set (R := expand5 (red_field v)) in *.
  set (G := expand6 (green_field v)) in *.
  set (B := expand5 (blue_field v)) in *.
  rewrite (js_shl_small R 16), (js_shl_small G 8);
    change (2 ^ 16) with 65536; change (2 ^ 8) with 256;
    change (2 ^ 31) with 2147483648; try lia.
  change 65536 with (2 ^ 16) at 1.
  rewrite (js_bor_shifted R (G * 256) 16);
    change (2 ^ 16) with 65536; change (2 ^ 31) with 2147483648; try lia.
  replace (R * 65536 + G * 256) with ((R * 256 + G) * 2 ^ 8)
    by (change (2 ^ 8) with 256; lia).
  rewrite js_bor_shifted;
    change (2 ^ 8) with 256; change (2 ^ 31) with 2147483648; lia.
Qed.

Lemma hex_range (v : Z) : 0 <= convertRGB565ToHex v <= 0xFFFFFF.
Proof.
  rewrite convertRGB565ToHex_sum.
  destruct (fields_range v) as [Hr [Hg Hb]].
  pose proof (expand5_range _ Hr). pose proof (expand6_range _ Hg).
  pose proof (expand5_range _ Hb). lia.
Qed.

Lemma fields_mod (v : Z) :
  red_field (v mod 65536) = red_field v
  /\ green_field (v mod 65536) = green_field v
  /\ blue_field (v mod 65536) = blue_field v.
Proof.
  unfold red_field, green_field, blue_field.
  Z.div_mod_to_equations; lia.
Qed.

Lemma hex_low16 (v : Z) :
  convertRGB565ToHex v = convertRGB565ToHex (v mod 65536).
Proof.
  rewrite !convertRGB565ToHex_sum.
  destruct (fields_mod v) as [-> [-> ->]]. reflexivity.
Qed.

Lemma hex_bytes (v : Z) :
  convertRGB565ToHex v / 65536 = expand5 (red_field v)
  /\ (convertRGB565ToHex v / 256) mod 256 = expand6 (green_field v)
  /\ convertRGB565ToHex v mod 256 = expand5 (blue_field v).
Proof.
  rewrite convertRGB565ToHex_sum.
  destruct (fields_range v) as [Hr [Hg Hb]].
  pose proof (expand5_range _ Hr). pose proof (expand6_range _ Hg).
  pose proof (expand5_range _ Hb).
  set (R := expand5 (red_field v)) in *.
  set (G := expand6 (green_field v)) in *.
  set (B := expand5 (blue_field v)) in *.
  repeat split; Z.div_mod_to_equations; lia.
Qed.

Lemma hex_rebuild (u : Z) :
  2048 * (convertRGB565ToHex u / 524288)
  + 32 * ((convertRGB565ToHex u / 1024) mod 64)
  + (convertRGB565ToHex u / 8) mod 32 = u mod 65536.
Proof.
  rewrite convertRGB565ToHex_sum, fields_compose.
  destruct (fields_range u) as [Hr [Hg Hb]].
  unfold expand5, expand6.
  set (r := red_field u) in *. set (g := green_field u) in *.
  set (b := blue_field u) in *.
  Z.div_mod_to_equations; lia.
Qed.

Lemma hex_injective (v w : Z) :
  convertRGB565ToHex w = convertRGB565ToHex v <-> w mod 65536 = v mod 65536.
Proof.
  split; intros H.
  - rewrite <- (hex_rebuild w), <- (hex_rebuild v), H. reflexivity.
  - rewrite (hex_low16 w), H. symmetry. apply hex_low16.
Qed.

(** X1: for every integer argument the result of [convertRGB565ToHex] is a
    24-bit colour number, between 0 and 0xFFFFFF. *)
Theorem convertRGB565ToHex_range (v : Z) :
  0 <= convertRGB565ToHex v <= 0xFFFFFF.
Proof. exact (hex_range v). Qed.

(** X2: only the low 16 bits of the argument count: an argument and its
    remainder modulo 65536 convert to the same colour, negative and oversized
    arguments included. *)
Theorem convertRGB565ToHex_low_16_bits (v : Z) :
  convertRGB565ToHex v = convertRGB565ToHex (v mod 65536).
Proof. exact (hex_low16 v). Qed.

(** X3: the red, green and blue bytes of the result are the levels of the
    red (bits 11 to 15), green (bits 5 to 10) and blue (bits 0 to 4) fields
    of the argument, each expanded to 8 bits by appending its own top bits:
    [8 c + c / 4] for a 5-bit level and [4 c + c / 16] for the 6-bit one. *)
Theorem convertRGB565ToHex_bytes (v : Z) :
  convertRGB565ToHex v / 65536 = expand5 (red_field v)
  /\ (convertRGB565ToHex v / 256) mod 256 = expand6 (green_field v)
  /\ convertRGB565ToHex v mod 256 = expand5 (blue_field v).
Proof. exact (hex_bytes v). Qed.

(** X4: the expansion loses nothing.  Dropping the appended low bits of the
    three bytes gives back the three fields, so the low 16 bits of the
    argument can be rebuilt from the result, and two arguments convert to the
    same colour exactly when they agree modulo 65536. *)
Theorem convertRGB565ToHex_lossless (v : Z) :
  let h := convertRGB565ToHex v in
  2048 * (h / 524288) + 32 * ((h / 1024) mod 64) + (h / 8) mod 32
  = v mod 65536
  /\ (forall w, convertRGB565ToHex w = h <-> w mod 65536 = v mod 65536).
Proof.
  cbv zeta. split; [apply hex_rebuild|].
  intros w. apply hex_injective.
Qed.

(** X5: the result is black (0) exactly for arguments whose low 16 bits are
    all clear, and white (0xFFFFFF) exactly for those whose low 16 bits are
    all set: full scale maps to full scale. *)
Theorem convertRGB565ToHex_black_and_white (v : Z) :
  (convertRGB565ToHex v = 0 <-> v mod 65536 = 0)
  /\ (convertRGB565ToHex v = 0xFFFFFF <-> v mod 65536 = 0xFFFF).
Proof.
  split.
  - change 0 with (convertRGB565ToHex 0) at 1.
    rewrite (hex_injective 0 v). reflexivity.
  - change 0xFFFFFF with (convertRGB565ToHex 0xFFFF) at 1.
    rewrite (hex_injective 0xFFFF v). reflexivity.
Qed.

(** X6: each byte of the result is within one level of the exact linear
    rescaling of its field to the range 0..255 ([255 c / 31] for red and
    blue, [255 c / 63] for green). *)
Theorem convertRGB565ToHex_accuracy (v : Z) :
  let h := convertRGB565ToHex v in
  Z.abs (31 * (h / 65536) - 255 * red_field v) < 31
  /\ Z.abs (63 * ((h / 256) mod 256) - 255 * green_field v) < 63
  /\ Z.abs (31 * (h mod 256) - 255 * blue_field v) < 31.
Proof.
  cbv zeta. destruct (hex_bytes v) as [-> [-> ->]].
  destruct (fields_range v) as [Hr [Hg Hb]].
  unfold expand5, expand6.
  set (r := red_field v) in *. set (g := green_field v) in *.
  set (b := blue_field v) in *.
  repeat split; Z.div_mod_to_equations; lia.
Qed.

(** X7: the conversion keeps the order of levels in every channel: of two
    arguments, the one with the larger red field has the larger red byte, and
    likewise for green and blue. *)
Theorem convertRGB565ToHex_monotone (v w : Z) :
  let h := convertRGB565ToHex v in
  let k := convertRGB565ToHex w in
  (h / 65536 < k / 65536 <-> red_field v < red_field w)
  /\ ((h / 256) mod 256 < (k / 256) mod 256 <-> green_field v < green_field w)
  /\ (h mod 256 < k mod 256 <-> blue_field v < blue_field w).
Proof.
  cbv zeta.
  destruct (hex_bytes v) as [-> [-> ->]].
  destruct (hex_bytes w) as [-> [-> ->]].
  unfold expand5, expand6.
  repeat split; intros H; Z.div_mod_to_equations; lia.
Qed.

(** X8: [convertRGB565ToCSSNotation] hands the colour package a 24-bit
    number whatever number it is given, or given none; a missing argument and
    the falsy numbers (zero, not-a-number) are rendered like 0 (black); any
    other number is rendered according to the low 16 bits of its integer
    part, the fraction being dropped toward zero, so that -0.5 is rendered
    like 0 and 65535.5 like 65535 (white). *)
Theorem convertRGB565ToCSSNotation_argument
    (color_string : Z -> string) (value : option JsNumber) :
  (exists n, 0 <= n <= 0xFFFFFF
     /\ convertRGB565ToCSSNotation color_string value = color_string n)
  /\ convertRGB565ToCSSNotation color_string None = color_string 0
  /\ (forall x, number_truthy x = false ->
        convertRGB565ToCSSNotation color_string (Some x) = color_string 0)
  /\ (forall x, convertRGB565ToCSSNotation color_string (Some x)
                = color_string
                    (convertRGB565ToHex (integral_part x mod 65536)))
  /\ convertRGB565ToCSSNotation color_string (Some (Finite (-1) 2))
     = color_string 0
  /\ convertRGB565ToCSSNotation color_string (Some (Finite 131071 2))
     = color_string 0xFFFFFF.
Proof.
  split; [|split; [|split; [|split; [|split]]]].
  - unfold convertRGB565ToCSSNotation. eexists. split; [|reflexivity].
    apply hex_range.
  - reflexivity.
  - intros x Hx. unfold convertRGB565ToCSSNotation. rewrite Hx. reflexivity.
  - intros x. unfold convertRGB565ToCSSNotation. f_equal.
    rewrite <- hex_low16.
    destruct x as [n d| |b]; simpl; try reflexivity.
    destruct (Z.eqb_spec n 0) as [->|Hn]; simpl; [|reflexivity].
    rewrite Z.quot_0_l by discriminate. reflexivity.
  - reflexivity.
  - reflexivity.
Qed.

End Rgb565Facts.

(** ** The notification handlers *)

Lemma body_and_defined (E : Engine) (message : JsVal) (k : string) :
  is_nullish message = false ->
  body_and E message k =
  Return (if truthy (js_prop E message "body")
          then body_field E message k
          else js_prop E message "body").
Proof.
  intros Hm. unfold body_and, body_field.
  rewrite (js_get_defined E message "body" Hm). simpl bind.
  destruct (truthy (js_prop E message "body")) eqn:Hb; [|reflexivity].
  simpl bind. apply js_get_defined, truthy_not_nullish. exact Hb.
Qed.

(** X9: the SYS-CLOSE handler never throws on a message object.  It
    dispatches exactly one action, [showError] of the reason, when the
    message has a body with a truthy reason, and dispatches nothing when the
    body or the reason is missing or falsy. *)
Theorem handle_SYS_CLOSE_dispatches
    (E : Engine) (Action : Type) (showError : JsVal -> Action)
    (message : JsVal) :
  is_nullish message = false ->
  let body := js_prop E message "body" in
  let reason := body_field E message "reason" in
  (truthy body = true -> truthy reason = true ->
     handle_SYS_CLOSE E Action showError message = Return [showError reason])
  /\ (truthy body = false \/ truthy reason = false ->
        handle_SYS_CLOSE E Action showError message = Return []).
Proof.
  intros Hm body reason. unfold handle_SYS_CLOSE.
  rewrite (body_and_defined E message "reason" Hm). simpl bind.
  fold body reason. split.
  - intros Hb Hr. rewrite Hb, Hr.
    rewrite (js_get_defined E message "body" Hm). simpl bind.
    fold body. rewrite (js_get_defined E body "reason")
      by (apply truthy_not_nullish; exact Hb).
    reflexivity.
  - intros [Hb|Hr].
    + rewrite Hb, Hb. reflexivity.
    + destruct (truthy body) eqn:Hb; [rewrite Hr|rewrite Hb]; reflexivity.
Qed.

(** A close message with a reason, and one with an empty body. *)
Lemma handle_SYS_CLOSE_dispatches_witness :
  handle_SYS_CLOSE es2015 JsVal (fun reason => reason)
    (JObj [("body", JObj [ ("type", JStr "SYS-CLOSE");
                           ("reason", JStr "Server is shutting down") ])])
  = Return [JStr "Server is shutting down"]
  /\ handle_SYS_CLOSE es2015 JsVal (fun reason => reason)
       (JObj [("body", JObj [("type", JStr "SYS-CLOSE")])])
     = Return [].
Proof.
  split.
  - refine (proj1 (handle_SYS_CLOSE_dispatches es2015 JsVal (fun r => r)
      (JObj [("body", JObj [ ("type", JStr "SYS-CLOSE");
                             ("reason", JStr "Server is shutting down") ])])
      _) _ _); reflexivity.
  - refine (proj2 (handle_SYS_CLOSE_dispatches es2015 JsVal (fun r => r)
      (JObj [("body", JObj [("type", JStr "SYS-CLOSE")])]) _) _).
    + reflexivity.
    + right. reflexivity.
Defined.

(** X10: the SYS-MSG handler never throws on a message object.  When the
    body carries a truthy [message] text it dispatches exactly one
    notification, made of that text and of the semantics derived from
    [body.severity] (whatever it is, [undefined] included); a message
    without text is dropped silently, severity or not. *)
Theorem handle_SYS_MSG_dispatches
    (E : Engine) (Action : Type) (showNotification : JsVal -> Action)
    (semanticsFromSeverity : JsVal -> JsVal) (message : JsVal) :
  is_nullish message = false ->
  let body := js_prop E message "body" in
  let text := body_field E message "message" in
  let severity := body_field E message "severity" in
  (truthy body = true -> truthy text = true ->
     handle_SYS_MSG E Action showNotification semanticsFromSeverity message
     = Return [showNotification
                 (JObj [ ("message", text);
                         ("semantics", semanticsFromSeverity severity) ])])
  /\ (truthy body = false \/ truthy text = false ->
        handle_SYS_MSG E Action showNotification semanticsFromSeverity message
        = Return []).
Proof.
  intros Hm body text severity. unfold handle_SYS_MSG.
  rewrite (body_and_defined E message "message" Hm). simpl bind.
  fold body text. split.
  - intros Hb Ht. rewrite Hb, Ht.
    rewrite (js_get_defined E message "body" Hm). simpl bind.
    fold body. rewrite !(js_get_defined E body _)
      by (apply truthy_not_nullish; exact Hb).
    reflexivity.
  - intros [Hb|Ht].
    + rewrite Hb, Hb. reflexivity.
    + destruct (truthy body) eqn:Hb; [rewrite Ht|rewrite Hb]; reflexivity.
Qed.

(** A message with text and no severity, and a severity without text. *)
Lemma handle_SYS_MSG_dispatches_witness :
  handle_SYS_MSG es2015 JsVal (fun payload => payload)
    (fun severity => JArr [JStr "semantics of"; severity])
    (JObj [("body", JObj [("message", JStr "Low battery")])])
  = Return [JObj [ ("message", JStr "Low battery");
                   ("semantics", JArr [JStr "semantics of"; JUndefined]) ]]
  /\ handle_SYS_MSG es2015 JsVal (fun payload => payload)
       (fun severity => JArr [JStr "semantics of"; severity])
       (JObj [("body", JObj [("severity", JStr "warning")])])
     = Return [].
Proof.
  split.
  - refine (proj1 (handle_SYS_MSG_dispatches es2015 JsVal (fun p => p)
      (fun severity => JArr [JStr "semantics of"; severity])
      (JObj [("body", JObj [("message", JStr "Low battery")])]) _) _ _);
      reflexivity.
  - refine (proj2 (handle_SYS_MSG_dispatches es2015 JsVal (fun p => p)
      (fun severity => JArr [JStr "semantics of"; severity])
      (JObj [("body", JObj [("severity", JStr "warning")])]) _) _).
    + reflexivity.
    + right. reflexivity.
Defined.

(** ** More on the two extractors *)

(** X11: a response whose type tag is a string other than ACK-NAK, the
    eight listed tags and the property names every object inherits
    ([Object_prototype_methods] and [__proto__]) makes the command extractor
    throw the unsupported-type error naming that tag, for every target id
    and whatever error, result and receipt maps the body holds. *)
Theorem unlisted_type_is_unsupported
    (E : Engine) (message : JsVal) (uavId t : string) :
  response_type E message = JStr t ->
  t <> "ACK-NAK" ->
  ~ In t receipt_types ->
  ~ In t Object_prototype_methods ->
  t <> "__proto__" ->
  extractResultOrReceiptFromMaybeAsyncResponse E message uavId
  = Throw (Thrown Error_ (t ++ " messages do not contain receipts")).
Proof.
  intros Ht Hack Hlisted Hinherited Hproto.
  apply (unknown_type_unsupported E message uavId t Ht Hack).
  destruct (truthy (js_prop E MESSAGES_WITH_RECEIPTS t)) eqn:Hk;
    [|reflexivity].
  apply known_type_iff in Hk. tauto.
Qed.

(** A notification type sent where a command response is expected. *)
Lemma unlisted_type_is_unsupported_witness :
  extractResultOrReceiptFromMaybeAsyncResponse es2015
    (JObj [("body", JObj [ ("type", JStr "UAV-INF");
                           ("result", JObj [("a", JNum 1)]) ])])
    "a"
  = Throw (Thrown Error_ "UAV-INF messages do not contain receipts").
Proof.
  refine (unlisted_type_is_unsupported es2015
    (JObj [("body", JObj [ ("type", JStr "UAV-INF");
                           ("result", JObj [("a", JNum 1)]) ])])
    "a" "UAV-INF" _ _ _ _ _).
  - reflexivity.
  - discriminate.
  - simpl. intuition discriminate.
  - simpl. intuition discriminate.
  - discriminate.
Defined.

(** X12: a response whose body has no type tag (the tag is [undefined] or
    [null]) makes the command extractor throw the unsupported-type error,
    whose text then starts with the word undefined or null. *)
Theorem missing_type_is_unsupported
    (E : Engine) (message : JsVal) (uavId : string) :
  is_nullish message = false ->
  is_nullish (js_prop E message "body") = false ->
  is_nullish (response_type E message) = true ->
  extractResultOrReceiptFromMaybeAsyncResponse E message uavId
  = Throw (Thrown Error_
      ((if is_undefined (response_type E message) then "undefined" else "null")
       ++ " messages do not contain receipts")).
Proof.
  intros Hm Hb Ht.
  unfold extractResultOrReceiptFromMaybeAsyncResponse.
  rewrite (js_get_defined E message "body" Hm). simpl bind.
  rewrite (js_get_defined E _ "type" Hb). simpl bind.
  unfold response_type in *.
  destruct (js_prop E (js_prop E message "body") "type");
    try discriminate; reflexivity.
Qed.

(** A response body that carries maps but no type. *)
Lemma missing_type_is_unsupported_witness :
  extractResultOrReceiptFromMaybeAsyncResponse es2015
    (JObj [("body", JObj [("result", JObj [("a", JNum 1)])])]) "a"
  = Throw (Thrown Error_ "undefined messages do not contain receipts").
Proof.
  refine (missing_type_is_unsupported es2015
    (JObj [("body", JObj [("result", JObj [("a", JNum 1)])])]) "a" _ _ _);
    reflexivity.
Defined.

(** X13: the command extractor needs a body.  On a message that is
    [undefined] or [null], or whose body is, it throws the runtime's own
    [TypeError] (from the destructuring), not one of its own errors. *)
Theorem command_extractor_needs_body
    (E : Engine) (message : JsVal) (uavId : string) :
  is_nullish message = true \/ is_nullish (js_prop E message "body") = true ->
  extractResultOrReceiptFromMaybeAsyncResponse E message uavId
  = Throw EngineTypeError.
Proof.
  intros H. unfold extractResultOrReceiptFromMaybeAsyncResponse.
  destruct (is_nullish message) eqn:Hm.
  - unfold js_get at 1. rewrite Hm. reflexivity.
  - destruct H as [H|H]; [discriminate|].
    rewrite (js_get_defined E message "body" Hm). simpl bind.
    unfold js_get at 1. rewrite H. reflexivity.
Qed.

(** A message without a body, and no message at all. *)
Lemma command_extractor_needs_body_witness :
  extractResultOrReceiptFromMaybeAsyncResponse es2015
    (JObj [("type", JStr "UAV-LAND")]) "a"
  = Throw EngineTypeError
  /\ extractResultOrReceiptFromMaybeAsyncResponse es2015 JUndefined "a"
     = Throw EngineTypeError.
Proof.
  split.
  - refine (command_extractor_needs_body es2015
      (JObj [("type", JStr "UAV-LAND")]) "a" _).
    right. reflexivity.
  - refine (command_extractor_needs_body es2015 JUndefined "a" _).
    left. reflexivity.
Defined.

(** X14: the status extractor does not need a body.  On a message that is
    [undefined] or [null], and on a plain object without a body (and without
    properties literally named body.error or body.status), it throws its own
    internal-inconsistency error for every id and every options value. *)
Theorem status_extractor_tolerates_missing_body
    (E : Engine) (message : JsVal) (id : string) (options : JsVal) :
  is_nullish message = true
  \/ (exists props,
        message = JObj props
        /\ own_property props "body.error" = None
        /\ own_property props "body.status" = None
        /\ is_nullish (js_prop E message "body") = true) ->
  extractResponseForId E message id options
  = Throw (Thrown Error_ (inconsistency_message id)).
Proof.
  intros H.
  assert (Hmaps : error_map E message = JUndefined
                  /\ status_map E message = JUndefined).
  { unfold error_map, status_map, get. destruct H as [H|H].
    - rewrite H. split; reflexivity.
    - destruct H as [props [-> [He [Hs Hb]]]].
      simpl is_nullish. cbv iota. unfold castPath, js_in.
      simpl find_property. rewrite He, Hs. simpl.
      rewrite Hb. split; reflexivity. }
  destruct Hmaps as [He Hs].
  rewrite (extractResponseForId_no_error E message id options)
    by (rewrite He; reflexivity).
  rewrite Hs. reflexivity.
Qed.

(** The same two messages as for the command extractor. *)
Lemma status_extractor_tolerates_missing_body_witness :
  extractResponseForId es2015 (JObj [("type", JStr "UAV-INF")]) "a" JUndefined
  = Throw (Thrown Error_
      "No result for ID a but no error either; this should not have happened.")
  /\ extractResponseForId es2015 JUndefined "a" JUndefined
     = Throw (Thrown Error_
         "No result for ID a but no error either; this should not have happened.").
Proof.
  split.
  - refine (status_extractor_tolerates_missing_body es2015
      (JObj [("type", JStr "UAV-INF")]) "a" JUndefined _).
    right. exists [("type", JStr "UAV-INF")]. repeat split; reflexivity.
  - refine (status_extractor_tolerates_missing_body es2015 JUndefined "a"
      JUndefined _).
    left. reflexivity.
Defined.









